(** * tagger.py: the OBS game start/end timestamp logger

    A shallow embedding of [src/tagger.py] and the properties of its scene
    transition detector, game id resolver and log writer.

    The script is a set of callbacks that the host (OBS) invokes.  Everything
    the callbacks obtain from outside (the host's settings object, the active
    scene, the HTTP endpoint, the clock, the file system) is gathered in a
    [world] record, one per callback invocation.  The module-level dictionary
    [data] is threaded as state, and every action on the outside is recorded
    in a trace of [effect]s, in the order in which it happens.  Python
    exceptions are the [Raise] outcome: the script has no [try], so a raised
    exception leaves the callback. *)

From Stdlib Require Import Ascii.
From stdpp Require Import base gmap strings list pretty.

Open Scope Z_scope.

(** ** Python values and their text *)

(** The values that can be stored under [data["current_game"]]: [None]
    initially, afterwards whatever the decoded JSON document holds under
    ["current_game_id"].  Floats, lists and dicts are carried with the text
    that [str()] gives for them, which is all the script ever asks of them. *)
Inductive pyval : Type :=
| PyNone
| PyBool (b : bool)
| PyInt (n : Z)
| PyStr (s : string)
| PyOther (shown : string).

(** [str(v)], which is what an f-string replacement field [{v}] produces. *)
Definition py_str (v : pyval) : string :=
  match v with
  | PyNone => "None"
  | PyBool true => "True"
  | PyBool false => "False"
  | PyInt n => pretty n
  | PyStr s => s
  | PyOther shown => shown
  end.

(** What [resp.json()] returns, seen through the one operation the script
    applies to it, a subscript by a [str] key: a dict, or a value of another
    type (list, str, number, bool, None). *)
Inductive json_doc : Type :=
| JsonDict (members : gmap string pyval)
| JsonOther.

Inductive exn : Type :=
| RequestException
| JSONDecodeError
| KeyError (key : string)
| TypeError
| OSError.

Inductive outcome (A : Type) : Type :=
| Return (a : A)
| Raise (e : exn).
Arguments Return {A} a.
Arguments Raise {A} e.

(** [doc[key]]: a missing key is a [KeyError]; a value that is not a dict is
    not subscriptable by a string and gives a [TypeError]. *)
Definition subscript (doc : json_doc) (key : string) : outcome pyval :=
  match doc with
  | JsonDict members =>
      match members !! key with
      | Some v => Return v
      | None => Raise (KeyError key)
      end
  | JsonOther => Raise TypeError
  end.

(** ** The clock *)

(** A naive [datetime.datetime], as [datetime.datetime.now()] returns it. *)
Record datetime : Type := {
  year : Z; month : Z; day : Z;
  hour : Z; minute : Z; second : Z;
  microsecond : Z
}.

Fixpoint zeros (n : nat) : string :=
  match n with
  | O => ""
  | S n' => "0" +:+ zeros n'
  end.

(** ["%0<width>d"] of a natural number. *)
Definition zfill (width : nat) (n : Z) : string :=
  let digits := pretty n in
  zeros (width - String.length digits) +:+ digits.

(** [datetime.isoformat()]: [YYYY-MM-DDTHH:MM:SS], followed by [.ffffff]
    when the microsecond field is not zero. *)
Definition isoformat (t : datetime) : string :=
  zfill 4 (year t) +:+ "-" +:+ zfill 2 (month t) +:+ "-" +:+ zfill 2 (day t)
  +:+ "T" +:+ zfill 2 (hour t) +:+ ":" +:+ zfill 2 (minute t)
  +:+ ":" +:+ zfill 2 (second t)
  +:+ (if microsecond t =? 0 then "" else "." +:+ zfill 6 (microsecond t)).

(** ** The host and the outside world *)

(** The content of the host's settings object, under the three keys that
    [script_properties] declares: the editable list ["gamescene"] (an array
    of items, each with its string under ["value"]) and the texts
    ["logfile"] and ["apiurl"].  [data["settings"]] is a reference to that
    object, which the host's property form edits in place; a callback reads
    the content it has at the time of the call. *)
Record obs_data : Type := {
  gamescene : list string;
  logfile : string;
  apiurl : string
}.

Record response : Type := {
  status_code : Z;
  json : outcome json_doc
}.

(** What a callback invocation finds outside the script. *)
Record world : Type := {
  settings : obs_data;
  (** [obs_source_get_name(obs_frontend_get_current_scene())] *)
  current_scene : string;
  (** [requests.get(url)]: a response, or the exception it raises *)
  requests_get : string -> outcome response;
  (** [datetime.datetime.now()] *)
  now : datetime;
  (** [open(path, "a")]: [None] when the file opens *)
  open_append : string -> option exn;
  (** [logfile.write(text)] and the flush of it: [None] when it succeeds *)
  file_write : string -> string -> option exn
}.

(** What the script does to the outside, in order. *)
Inductive effect : Type :=
| Print (msg : string)
| Get (url : string)
| Open (path mode : string) (ok : bool)
| Write (path text : string) (ok : bool)
| Close (path : string).

(** ** The module state *)

(** The entries of the module-level [data] dictionary that the script
    assigns after loading. *)
Record data : Type := {
  in_game_scene : bool;
  current_game : pyval
}.

Definition initial_data : data :=
  {| in_game_scene := false; current_game := PyNone |}.

(** ** Computations: state, trace and exceptions *)

Definition M (A : Type) : Type := data -> outcome A * data * list effect.

#[global] Instance M_ret : MRet M := fun A a d => (Return a, d, []).

#[global] Instance M_bind : MBind M := fun A B f m d =>
  match m d with
  | (Return a, d1, t1) =>
      match f a d1 with
      | (o, d2, t2) => (o, d2, t1 ++ t2)
      end
  | (Raise e, d1, t1) => (Raise e, d1, t1)
  end.

Definition raise {A : Type} (e : exn) : M A := fun d => (Raise e, d, []).

Definition lift {A : Type} (o : outcome A) : M A := fun d => (o, d, []).

Definition emit (e : effect) : M unit := fun d => (Return tt, d, [e]).

Definition get_data : M data := fun d => (Return d, d, []).

Definition put_data (d' : data) : M unit := fun _ => (Return tt, d', []).

(** [try: body finally: cleanup], for a cleanup that does not raise. *)
Definition finally {A : Type} (body : M A) (cleanup : M unit) : M A := fun d =>
  match body d with
  | (o, d1, t1) =>
      match cleanup d1 with
      | (_, d2, t2) => (o, d2, t1 ++ t2)
      end
  end.

Definition print (msg : string) : M unit := emit (Print msg).

(** [with open(path, "a") as f: body]: when the file opens, the body runs
    and the file is closed on the way out, whether the body returns or
    raises. *)
Definition with_open_append {A : Type} (w : world) (path : string)
    (body : M A) : M A :=
  match open_append w path with
  | Some e => emit (Open path "a" false);; raise e
  | None => emit (Open path "a" true);; finally body (emit (Close path))
  end.

(** [f.write(text)] on the file opened at [path]. *)
Definition write (w : world) (path text : string) : M unit :=
  match file_write w path text with
  | Some e => emit (Write path text false);; raise e
  | None => emit (Write path text true)
  end.

(** ** Tool functions *)

Definition newline : string := String "010"%char EmptyString.

(** The f-string of [log_transition]:
    [f"[{timestamp}] {event} {data["current_game"]}\n"]. *)
Definition format_line (timestamp event : string) (game : pyval) : string :=
  "[" +:+ timestamp +:+ "] " +:+ event +:+ " " +:+ py_str game +:+ newline.

Definition log_transition (w : world) (end_ : bool) : M unit :=
  let timestamp := isoformat (now w) in
  let event := nth (Nat.b2n end_) ["START"; "END"] "" in
  with_open_append w (logfile (settings w))
    (d ← get_data;
     write w (logfile (settings w))
       (format_line timestamp event (current_game d))).

Definition set_game (w : world) : M unit :=
  emit (Get (apiurl (settings w)));;
  resp ← lift (requests_get w (apiurl (settings w)));
  if status_code resp =? 200 then
    doc ← lift (json resp);
    v ← lift (subscript doc "current_game_id");
    d ← get_data;
    put_data {| in_game_scene := in_game_scene d; current_game := v |}
  else
    print "Failed to get data from API".

(** The loop of [handle_event] that copies the host's array into a Python
    list, item by item. *)
Definition read_game_scenes (game_scene_array : list string) : list string :=
  fold_left
    (fun game_scenes i =>
       match game_scene_array !! i with
       | Some value => game_scenes ++ [value]
       | None => game_scenes
       end)
    (seq 0 (length game_scene_array)) [].

(** ** Observations on a trace *)

(** The URLs requested, in order. *)
Definition requests (t : list effect) : list string :=
  omap (fun e => match e with Get url => Some url | _ => None end) t.

(** The texts that reached a file, in order, each with its path. *)
Definition written (t : list effect) : list (string * string) :=
  omap (fun e =>
          match e with
          | Write path text true => Some (path, text)
          | _ => None
          end) t.

(** ** Vocabulary of the statements *)

(** The lookup raises [e]: in the request itself, in the decoding of the
    body of a 200 response, or in the subscript of the decoded document. *)
Definition lookup_raises (w : world) (e : exn) : Prop :=
  requests_get w (apiurl (settings w)) = Raise e \/
  exists resp,
    requests_get w (apiurl (settings w)) = Return resp /\
    status_code resp = 200 /\
    (json resp = Raise e \/
     exists doc,
       json resp = Return doc /\ subscript doc "current_game_id" = Raise e).

(** The lookup yields the game id [v]. *)
Definition lookup_yields (w : world) (v : pyval) : Prop :=
  exists resp doc,
    requests_get w (apiurl (settings w)) = Return resp /\
    status_code resp = 200 /\
    json resp = Return doc /\
    subscript doc "current_game_id" = Return v.

(** The lookup fails in one of the ways the specification lists: a status
    other than success, a network error, a malformed body or a missing
    field. *)
Definition lookup_fails (w : world) : Prop :=
  (exists resp,
     requests_get w (apiurl (settings w)) = Return resp /\
     status_code resp <> 200) \/
  exists e, lookup_raises w e.

(** The log file accepts one more text. *)
Definition append_succeeds (w : world) (text : string) : Prop :=
  open_append w (logfile (settings w)) = None /\
  file_write w (logfile (settings w)) text = None.

(** A result of the handler in which the start was recorded: a START line
    reached the log file and the flag is set. *)
Definition start_recorded (w : world)
    (r : outcome unit * data * list effect) : Prop :=
  (exists game,
     (logfile (settings w), format_line (isoformat (now w)) "START" game)
       ∈ written r.2) /\
  in_game_scene r.1.2 = true.


(** ** A concrete configuration *)

Definition example_settings : obs_data :=
  {| gamescene := ["Game Capture"];
     logfile := "tagger.log";
     apiurl := "http://localhost:8080/api" |}.

Definition example_time : datetime :=
  {| year := 2024; month := 3; day := 9;
     hour := 17; minute := 5; second := 42;
     microsecond := 1234 |}.

(** A world with a writable log file, in which [scene] is active and the
    endpoint answers [reply]. *)
Definition example_world (scene : string) (reply : outcome response) : world :=
  {| settings := example_settings;
     current_scene := scene;
     requests_get := fun _ => reply;
     now := example_time;
     open_append := fun _ => None;
     file_write := fun _ _ => None |}.

(** The same with a log file that cannot be opened. *)
Definition example_world_read_only (scene : string)
    (reply : outcome response) : world :=
  {| settings := example_settings;
     current_scene := scene;
     requests_get := fun _ => reply;
     now := example_time;
     open_append := fun _ => Some OSError;
     file_write := fun _ _ => None |}.

(** A world whose settings have no game scene. *)
Definition example_world_no_scenes (scene : string) : world :=
  {| settings :=
       {| gamescene := []; logfile := "tagger.log";
          apiurl := "http://localhost:8080/api" |};
     current_scene := scene;
     requests_get := fun _ => Raise RequestException;
     now := example_time;
     open_append := fun _ => None;
     file_write := fun _ _ => None |}.

Definition reply_ok : response :=
  {| status_code := 200;
     json := Return (JsonDict {[ "current_game_id" := PyStr "sm64-120" ]}) |}.

Definition reply_not_found : response :=
  {| status_code := 404; json := Raise JSONDecodeError |}.

Definition reply_malformed : response :=
  {| status_code := 200; json := Raise JSONDecodeError |}.

Definition reply_without_field : response :=
  {| status_code := 200;
     json := Return (JsonDict {[ "game" := PyStr "sm64-120" ]}) |}.

(** The value of [OBS_FRONTEND_EVENT_SCENE_CHANGED] in the host's
    [obs_frontend_event] enumeration, used to run the examples. *)
Definition example_scene_changed : Z := 8.

(** ** Vocabulary of the further properties *)

(** The console output, in order. *)
Definition printed (t : list effect) : list string :=
  omap (fun e => match e with Print msg => Some msg | _ => None end) t.

(** The world with another array under ["gamescene"], all else equal. *)
Definition with_game_scenes (w : world) (scenes : list string) : world :=
  {| settings :=
       {| gamescene := scenes;
          logfile := logfile (settings w);
          apiurl := apiurl (settings w) |};
     current_scene := current_scene w;
     requests_get := requests_get w;
     now := now w;
     open_append := open_append w;
     file_write := file_write w |}.

(** The shape of a log.  [log_shape None texts]: the texts are START and END
    lines in alternation, beginning with a START line, and each END line
    carries the game id of the START line before it.  [log_shape (Some g)
    texts]: the same for a log that continues after a START line with game
    id [g], so that it begins with the END line for [g]. *)
Inductive log_shape : option pyval -> list string -> Prop :=
| log_shape_nil (o : option pyval) : log_shape o []
| log_shape_start (timestamp : string) (g : pyval) (texts : list string) :
    log_shape (Some g) texts ->
    log_shape None (format_line timestamp "START" g :: texts)
| log_shape_end (timestamp : string) (g : pyval) (texts : list string) :
    log_shape None texts ->
    log_shape (Some g) (format_line timestamp "END" g :: texts).

(** The part of the state that the log depends on: the game id of the
    START line that is still to be closed, if the flag is set. *)
Definition open_game (d : data) : option pyval :=
  if in_game_scene d then Some (current_game d) else None.

(** File discipline of a trace, with [opened] the path of the file that is
    open at its beginning: files are opened in append mode and one at a
    time, texts are written only to the open file, the file that is closed
    is the open one, and no file is left open at the end. *)
Fixpoint file_discipline (opened : option string) (t : list effect) : bool :=
  match t with
  | [] => bool_decide (opened = None)
  | Open path mode ok :: t' =>
      bool_decide (opened = None) && bool_decide (mode = "a")
      && file_discipline (if ok then Some path else None) t'
  | Write path _ _ :: t' =>
      bool_decide (opened = Some path) && file_discipline opened t'
  | Close path :: t' =>
      bool_decide (opened = Some path) && file_discipline None t'
  | _ :: t' => file_discipline opened t'
  end.

(** The scene change events of a sequence. *)
Definition scene_changes (scene_changed : Z) (events : list (world * Z))
    : list (world * Z) :=
  filter (fun ev => ev.2 = scene_changed) events.

(** ** Reading a log line back *)

(** The value of a decimal digit: the characters with codes 48 to 57. *)
Definition digit_value (c : ascii) : option N :=
  let code := N_of_ascii c in
  if ((48 <=? code) && (code <=? 57))%N then Some (code - 48)%N else None.

(** The number that a string of decimal digits denotes after the digits
    read so far denote [acc]; [None] when a character is not a digit. *)
Fixpoint digits_value (acc : N) (s : string) : option N :=
  match s with
  | EmptyString => Some acc
  | String c s' =>
      match digit_value c with
      | Some v => digits_value (10 * acc + v)%N s'
      | None => None
      end
  end.

(** [s] is the numeral of [n] in exactly [width] decimal digits. *)
Definition numeral (width : nat) (n : Z) (s : string) : Prop :=
  String.length s = width /\ digits_value 0 s = Some (Z.to_N n) /\ 0 <= n.

(** [s] is the ISO 8601 text of the naive time [t], to the second, with six
    decimal places when the microseconds are not zero:
    [YYYY-MM-DDTHH:MM:SS] or [YYYY-MM-DDTHH:MM:SS.ffffff]. *)
Definition iso8601 (t : datetime) (s : string) : Prop :=
  exists yyyy mo dd hh mi ss fraction,
    s = yyyy +:+ "-" +:+ mo +:+ "-" +:+ dd +:+ "T"
        +:+ hh +:+ ":" +:+ mi +:+ ":" +:+ ss +:+ fraction /\
    numeral 4 (year t) yyyy /\ numeral 2 (month t) mo /\
    numeral 2 (day t) dd /\ numeral 2 (hour t) hh /\
    numeral 2 (minute t) mi /\ numeral 2 (second t) ss /\
    (if decide (microsecond t = 0) then fraction = ""
     else exists ffffff,
       fraction = "." +:+ ffffff /\ numeral 6 (microsecond t) ffffff).

(** The fields of a [datetime.datetime] are within these bounds. *)
Definition datetime_valid (t : datetime) : Prop :=
  1 <= year t <= 9999 /\ 1 <= month t <= 12 /\ 1 <= day t <= 31 /\
  0 <= hour t < 24 /\ 0 <= minute t < 60 /\ 0 <= second t < 60 /\
  0 <= microsecond t < 1000000.

(** The number of line feeds in a text. *)
Fixpoint line_feeds (s : string) : nat :=
  match s with
  | EmptyString => 0
  | String c s' =>
      (if Ascii.eqb c "010" then 1 else 0) + line_feeds s'
  end%nat.

(** The append to the log file raises [e], at [open] or at the write of
    [text]. *)
Definition append_raises (w : world) (text : string) (e : exn) : Prop :=
  open_append w (logfile (settings w)) = Some e \/
  open_append w (logfile (settings w)) = None /\
  file_write w (logfile (settings w)) text = Some e.



(** The log writer as the specification has it for every call: exactly one
    line is written. *)
Definition writes_one_line (w : world) (end_ : bool) (d : data) : Prop :=
  exists text,
    written (log_transition w end_ d).2 = [(logfile (settings w), text)].

(** ** Event handler *)

Section Tagger.

(** The host's event code for a scene change, a constant of [obspython]. *)
Variable OBS_FRONTEND_EVENT_SCENE_CHANGED : Z.

Definition handle_event (w : world) (event : Z) : M unit :=
  if event =? OBS_FRONTEND_EVENT_SCENE_CHANGED then
    let scene_name := current_scene w in
    let game_scenes := read_game_scenes (gamescene (settings w)) in
    d ← get_data;
    if negb (in_game_scene d) && bool_decide (scene_name ∈ game_scenes) then
      print "Entering game";;
      set_game w;;
      log_transition w false;;
      d ← get_data;
      put_data {| in_game_scene := true; current_game := current_game d |}
    else if in_game_scene d && negb (bool_decide (scene_name ∈ game_scenes)) then
      print "Leaving game";;
      log_transition w true;;
      d ← get_data;
      put_data {| in_game_scene := false; current_game := current_game d |}
    else
      mret tt
  else
    mret tt.

(** The callback invoked once per host event, each time with the world as
    it is then.  The module dictionary keeps its content from one
    invocation to the next, whatever the outcome of the invocation. *)
Fixpoint run (events : list (world * Z)) (d : data) : data * list effect :=
  match events with
  | [] => (d, [])
  | (w, event) :: rest =>
      match handle_event w event d with
      | (_, d1, t1) =>
          match run rest d1 with
          | (d2, t2) => (d2, t1 ++ t2)
          end
      end
  end.


(** The specification's best-effort policy, read on the handler: whenever
    a start transition is due and the lookup fails, in any of the listed
    ways, the start is recorded all the same. *)
Definition start_survives_failed_lookup (w : world) (d : data) : Prop :=
  in_game_scene d = false ->
  current_scene w ∈ gamescene (settings w) ->
  lookup_fails w ->
  start_recorded w (handle_event w OBS_FRONTEND_EVENT_SCENE_CHANGED d).

(** The start transition as the specification has it for every state: one
    request, then one START line, then the flag set. *)
Definition start_transition_completes (w : world) (d : data) : Prop :=
  in_game_scene d = false ->
  current_scene w ∈ gamescene (settings w) ->
  let r := handle_event w OBS_FRONTEND_EVENT_SCENE_CHANGED d in
  requests r.2 = [apiurl (settings w)] /\
  (exists game,
     written r.2
     = [(logfile (settings w),
         format_line (isoformat (now w)) "START" game)]) /\
  in_game_scene r.1.2 = true.

(** The end transition as the specification has it for every state: no
    request, one END line with the stored game id, then the flag
    cleared. *)
Definition end_transition_completes (w : world) (d : data) : Prop :=
  in_game_scene d = true ->
  current_scene w ∉ gamescene (settings w) ->
  let r := handle_event w OBS_FRONTEND_EVENT_SCENE_CHANGED d in
  requests r.2 = [] /\
  written r.2
  = [(logfile (settings w),
      format_line (isoformat (now w)) "END" (current_game d))] /\
  in_game_scene r.1.2 = false.

(** * Properties *)

(** ** The building blocks, evaluated *)

Lemma read_game_scenes_app (done_ rest acc : list string) :
  fold_left
    (fun game_scenes i =>
       match (done_ ++ rest) !! i with
       | Some value => game_scenes ++ [value]
       | None => game_scenes
       end)
    (seq (length done_) (length rest)) acc = acc ++ rest.
Proof.
  revert done_ acc.
  induction rest as [|x rest IH]; intros done_ acc; simpl.
  - by rewrite app_nil_r.
  - rewrite list_lookup_middle by done.
    replace (done_ ++ x :: rest) with ((done_ ++ [x]) ++ rest)
      by (by rewrite <- app_assoc).
    replace (S (length done_)) with (length (done_ ++ [x]))
      by (rewrite length_app; simpl; lia).
    rewrite IH. by rewrite <- app_assoc.
Qed.

(** The list built by the loop is the host's array. *)
Lemma read_game_scenes_eq (game_scene_array : list string) :
  read_game_scenes game_scene_array = game_scene_array.
Proof.
  unfold read_game_scenes.
  apply (read_game_scenes_app [] game_scene_array []).
Qed.

Lemma log_transition_run (w : world) (end_ : bool) (d : data) :
  let path := logfile (settings w) in
  let line := format_line (isoformat (now w))
                (if end_ then "END" else "START") (current_game d) in
  log_transition w end_ d =
    match open_append w path with
    | Some e => (Raise e, d, [Open path "a" false])
    | None =>
        match file_write w path line with
        | Some e =>
            (Raise e, d, [Open path "a" true; Write path line false; Close path])
        | None =>
            (Return tt, d, [Open path "a" true; Write path line true; Close path])
        end
    end.
Proof.
  unfold log_transition, with_open_append, write.
  destruct end_; simpl;
    destruct (open_append w (logfile (settings w))); try reflexivity;
    unfold mbind, M_bind, finally, emit, get_data, raise; simpl;
    match goal with |- context [file_write ?a ?b ?c] =>
      destruct (file_write a b c) end; reflexivity.
Qed.

Lemma set_game_run (w : world) (d : data) :
  let url := apiurl (settings w) in
  set_game w d =
    match requests_get w url with
    | Raise e => (Raise e, d, [Get url])
    | Return resp =>
        if status_code resp =? 200 then
          match json resp with
          | Raise e => (Raise e, d, [Get url])
          | Return doc =>
              match subscript doc "current_game_id" with
              | Raise e => (Raise e, d, [Get url])
              | Return v =>
                  (Return tt,
                   {| in_game_scene := in_game_scene d; current_game := v |},
                   [Get url])
              end
          end
        else (Return tt, d, [Get url; Print "Failed to get data from API"])
    end.
Proof.
  unfold set_game, mbind, M_bind, emit, lift, print, get_data, put_data; simpl.
  destruct (requests_get w (apiurl (settings w))) as [resp|e]; [|reflexivity].
  destruct (status_code resp =? 200); [|reflexivity].
  destruct (json resp) as [doc|e]; [|reflexivity].
  destruct (subscript doc "current_game_id"); reflexivity.
Qed.

(** The three branches of the handler on a scene change. *)

Lemma handle_event_start (w : world) (d : data) :
  in_game_scene d = false ->
  current_scene w ∈ gamescene (settings w) ->
  handle_event w OBS_FRONTEND_EVENT_SCENE_CHANGED d =
    match set_game w d with
    | (Raise e, d1, t1) => (Raise e, d1, Print "Entering game" :: t1)
    | (Return _, d1, t1) =>
        match log_transition w false d1 with
        | (Raise e, d2, t2) => (Raise e, d2, Print "Entering game" :: t1 ++ t2)
        | (Return _, d2, t2) =>
            (Return tt,
             {| in_game_scene := true; current_game := current_game d2 |},
             Print "Entering game" :: t1 ++ t2)
        end
    end.
Proof.
  intros Hout Hin. unfold handle_event.
  rewrite Z.eqb_refl, read_game_scenes_eq.
  unfold mbind at 1. unfold M_bind at 1. simpl.
  rewrite Hout, bool_decide_eq_true_2 by done. simpl.
  unfold mbind, M_bind, print, emit, get_data, put_data; simpl.
  destruct (set_game w d) as [[[[]|e] d1] t1]; [|reflexivity].
  destruct (log_transition w false d1) as [[[[]|e] d2] t2];
    rewrite ?app_nil_r; reflexivity.
Qed.

Lemma handle_event_end (w : world) (d : data) :
  in_game_scene d = true ->
  current_scene w ∉ gamescene (settings w) ->
  handle_event w OBS_FRONTEND_EVENT_SCENE_CHANGED d =
    match log_transition w true d with
    | (Raise e, d1, t1) => (Raise e, d1, Print "Leaving game" :: t1)
    | (Return _, d1, t1) =>
        (Return tt,
         {| in_game_scene := false; current_game := current_game d1 |},
         Print "Leaving game" :: t1)
    end.
Proof.
  intros Hin Hout. unfold handle_event.
  rewrite Z.eqb_refl, read_game_scenes_eq.
  unfold mbind at 1. unfold M_bind at 1. simpl.
  rewrite Hin, bool_decide_eq_false_2 by done. simpl.
  unfold mbind, M_bind, print, emit, get_data, put_data; simpl.
  destruct (log_transition w true d) as [[[[]|e] d1] t1];
    rewrite ?app_nil_r; reflexivity.
Qed.

Lemma handle_event_settled (w : world) (d : data) :
  in_game_scene d = bool_decide (current_scene w ∈ gamescene (settings w)) ->
  handle_event w OBS_FRONTEND_EVENT_SCENE_CHANGED d = (Return tt, d, []).
Proof.
  intros Hsame. unfold handle_event.
  rewrite Z.eqb_refl, read_game_scenes_eq.
  unfold mbind, M_bind, get_data. simpl. rewrite Hsame.
  destruct (bool_decide (current_scene w ∈ gamescene (settings w)));
    reflexivity.
Qed.

Lemma handle_event_other (w : world) (event : Z) (d : data) :
  event <> OBS_FRONTEND_EVENT_SCENE_CHANGED ->
  handle_event w event d = (Return tt, d, []).
Proof.
  intros Hne. unfold handle_event.
  apply Z.eqb_neq in Hne. rewrite Hne. reflexivity.
Qed.

(** ** The scene transition detector *)

(** A start transition whose lookup fails.  With a status other than 200
    the failure is printed and the transition goes on: the START line is
    appended with the game id stored before (stale or [None]) and the flag
    is set.  When the lookup raises (the request itself, a body that is not
    JSON, a document without the field), the exception leaves the handler
    after the request, before the log writer is called. *)
Theorem failed_lookup_start_transition (w : world) (d : data) :
  in_game_scene d = false ->
  current_scene w ∈ gamescene (settings w) ->
  let url := apiurl (settings w) in
  let path := logfile (settings w) in
  let line := format_line (isoformat (now w)) "START" (current_game d) in
  (forall resp,
     requests_get w url = Return resp ->
     status_code resp <> 200 ->
     append_succeeds w line ->
     handle_event w OBS_FRONTEND_EVENT_SCENE_CHANGED d =
       (Return tt,
        {| in_game_scene := true; current_game := current_game d |},
        [Print "Entering game"; Get url; Print "Failed to get data from API";
         Open path "a" true; Write path line true; Close path])) /\
  (forall e,
     lookup_raises w e ->
     handle_event w OBS_FRONTEND_EVENT_SCENE_CHANGED d =
       (Raise e, d, [Print "Entering game"; Get url])).
Proof.
  intros Hout Hin url path line. subst url path line. split.
  - intros resp Hget Hstatus [Hopen Hwrite].
    rewrite handle_event_start, set_game_run by done. simpl.
    rewrite Hget. apply Z.eqb_neq in Hstatus. rewrite Hstatus.
    rewrite log_transition_run. simpl.
    rewrite Hopen, Hwrite. reflexivity.
  - intros e Hraise.
    rewrite handle_event_start, set_game_run by done. simpl.
    destruct Hraise as [Hget|(resp & Hget & Hstatus & Hbody)].
    + rewrite Hget. reflexivity.
    + rewrite Hget, Hstatus. simpl.
      destruct Hbody as [Hjson|(doc & Hjson & Hsub)].
      * rewrite Hjson. reflexivity.
      * rewrite Hjson, Hsub. reflexivity.
Qed.

(** What a failing append does to the handler: the exception of [open] or
    of the write is not caught anywhere in the script, so it leaves the log
    writer as it is raised. *)
Lemma log_transition_raises (w : world) (end_ : bool) (d : data) (e : exn) :
  open_append w (logfile (settings w)) = Some e ->
  log_transition w end_ d =
    (Raise e, d, [Open (logfile (settings w)) "a" false]).
Proof. intros Hopen. rewrite log_transition_run. simpl. by rewrite Hopen. Qed.

(** It leaves the handler too, with the flag as it was: a transition
    that could not be logged is not recorded in the state either. *)
Lemma handle_event_append_raises (w : world) (d : data) (e : exn) :
  open_append w (logfile (settings w)) = Some e ->
  in_game_scene d <> bool_decide (current_scene w ∈ gamescene (settings w)) ->
  forall o d' t,
    handle_event w OBS_FRONTEND_EVENT_SCENE_CHANGED d = (o, d', t) ->
    (exists e', o = Raise e') /\
    in_game_scene d' = in_game_scene d /\
    written t = [].
Proof.
  intros Hopen Hdue o d' t Hrun.
  destruct (in_game_scene d) eqn:Hd;
    destruct (decide (current_scene w ∈ gamescene (settings w))) as [Hin|Hin].
  - by rewrite bool_decide_eq_true_2 in Hdue.
  - rewrite handle_event_end, log_transition_run in Hrun by done.
    simpl in Hrun. rewrite Hopen in Hrun. simplify_eq. eauto.
  - rewrite handle_event_start, set_game_run in Hrun by done.
    simpl in Hrun.
    assert (Hlog : forall d1, log_transition w false d1 =
              (Raise e, d1, [Open (logfile (settings w)) "a" false]))
      by (intros d1; by apply log_transition_raises).
    destruct (requests_get w (apiurl (settings w))) as [resp|e1];
      [|simplify_eq; eauto].
    destruct (status_code resp =? 200).
    + destruct (json resp) as [doc|e1]; [|simplify_eq; eauto].
      destruct (subscript doc "current_game_id") as [v|e1];
        [|simplify_eq; eauto].
      rewrite Hlog in Hrun. simplify_eq. eauto.
    + rewrite Hlog in Hrun. simplify_eq. eauto.
  - by rewrite bool_decide_eq_false_2 in Hdue.
Qed.

(** The lookup sends one request and writes nothing, whatever comes of
    it. *)
Lemma set_game_trace (w : world) (d : data) :
  requests (set_game w d).2 = [apiurl (settings w)] /\
  written (set_game w d).2 = [].
Proof.
  rewrite set_game_run. simpl.
  destruct (requests_get w (apiurl (settings w))) as [resp|e]; [|done].
  destruct (status_code resp =? 200); [|done].
  destruct (json resp) as [doc|e]; [|done].
  by destruct (subscript doc "current_game_id").
Qed.

Lemma requests_app (t1 t2 : list effect) :
  requests (t1 ++ t2) = requests t1 ++ requests t2.
Proof. apply omap_app. Qed.

Lemma written_app (t1 t2 : list effect) :
  written (t1 ++ t2) = written t1 ++ written t2.
Proof. apply omap_app. Qed.



(** C3, as the code has it.  With the flag unset and the active scene among
    the game scenes, the handler calls the resolver, exactly once.  When the
    resolver returns and the log file accepts the line, the handler then
    appends exactly one START line, carrying the game id as the resolver
    left it, and then sets the flag.  The flag is set after the log writer
    has returned, not before: when the resolver returns and the append
    raises, the exception leaves the handler, nothing is written and the
    flag is still unset. *)
Theorem start_transition_sequence (w : world) (d : data) :
  in_game_scene d = false ->
  current_scene w ∈ gamescene (settings w) ->
  requests (handle_event w OBS_FRONTEND_EVENT_SCENE_CHANGED d).2
    = [apiurl (settings w)] /\
  forall d1 t1,
    set_game w d = (Return tt, d1, t1) ->
    let path := logfile (settings w) in
    let line := format_line (isoformat (now w)) "START" (current_game d1) in
    let r := handle_event w OBS_FRONTEND_EVENT_SCENE_CHANGED d in
    (append_succeeds w line ->
     r = (Return tt,
          {| in_game_scene := true; current_game := current_game d1 |},
          Print "Entering game"
            :: t1 ++ [Open path "a" true; Write path line true; Close path]) /\
     written r.2 = [(path, line)]) /\
    (forall e,
       append_raises w line e ->
       r.1 = (Raise e, d1) /\
       in_game_scene r.1.2 = false /\
       written r.2 = []).
Proof.
  intros Hout Hin. split.
  - rewrite handle_event_start by done.
    pose proof (set_game_trace w d) as [Hreq _].
    destruct (set_game w d) as [[[[]|e] d1] t1]; simpl in *; [|done].
    rewrite log_transition_run. simpl.
    destruct (open_append w (logfile (settings w)));
      [|destruct (file_write w _ _)];
      simpl; rewrite requests_app, Hreq; reflexivity.
  - intros d1 t1 Hset path line r. subst r path line.
    rewrite handle_event_start by done.
    pose proof (set_game_trace w d) as [_ Hwritten].
    assert (Hflag1 : in_game_scene d1 = false).
    { revert Hset. rewrite set_game_run. simpl.
      destruct (requests_get w _) as [resp|]; [|done].
      destruct (status_code resp =? 200).
      - destruct (json resp) as [doc|]; [|done].
        destruct (subscript doc _); [|done]. intros; by simplify_eq.
      - intros; by simplify_eq. }
    rewrite Hset in *. simpl in Hwritten.
    rewrite log_transition_run. simpl. split.
    + intros [Hopen Hwrite]. rewrite Hopen, Hwrite. simpl.
      split; [reflexivity|].
      rewrite written_app, Hwritten. reflexivity.
    + intros e [Hopen|[Hopen Hwrite]].
      * rewrite Hopen. simpl. by rewrite written_app, Hwritten.
      * rewrite Hopen, Hwrite. simpl. by rewrite written_app, Hwritten.
Qed.

(** C4, as the code has it.  With the flag set and the active scene not
    among the game scenes, the handler sends no request and leaves the
    stored game id alone.  When the log file accepts the line, it appends
    exactly one END line, carrying the stored game id, and then clears the
    flag.  When the append raises, the exception leaves the handler,
    nothing is written and the flag is still set. *)
Theorem end_transition_sequence (w : world) (d : data) :
  in_game_scene d = true ->
  current_scene w ∉ gamescene (settings w) ->
  let r := handle_event w OBS_FRONTEND_EVENT_SCENE_CHANGED d in
  let path := logfile (settings w) in
  let line := format_line (isoformat (now w)) "END" (current_game d) in
  requests r.2 = [] /\
  current_game r.1.2 = current_game d /\
  (append_succeeds w line ->
   r = (Return tt,
        {| in_game_scene := false; current_game := current_game d |},
        [Print "Leaving game";
         Open path "a" true; Write path line true; Close path]) /\
   written r.2 = [(path, line)]) /\
  (forall e,
     append_raises w line e ->
     r.1 = (Raise e, d) /\ written r.2 = []).
Proof.
  intros Hin Hout r path line. subst r path line.
  rewrite handle_event_end, log_transition_run by done. simpl.
  destruct (open_append w (logfile (settings w))) as [e|] eqn:Hopen.
  { split; [done|split; [done|]]. split.
    - intros [? ?]. congruence.
    - intros e' [?|[? _]]; [by simplify_eq|congruence]. }
  destruct (file_write w _ _) as [e|] eqn:Hwrite.
  { split; [done|split; [done|]]. split.
    - intros [? ?]. congruence.
    - intros e' [?|[_ ?]]; [congruence|by simplify_eq]. }
  split; [done|split; [done|]]. split; [done|].
  intros e' [?|[_ ?]]; congruence.
Qed.

(** C5.  When the flag already agrees with the membership of the active
    scene among the game scenes, a scene change does nothing: no effect, no
    change of state.  In particular, once the handler has returned from a
    scene change to a game scene, a second scene change with the same scene
    name and the same game scenes does nothing. *)
Theorem settled_scene_change_is_noop (w : world) (d : data) :
  (in_game_scene d = bool_decide (current_scene w ∈ gamescene (settings w)) ->
   handle_event w OBS_FRONTEND_EVENT_SCENE_CHANGED d = (Return tt, d, [])) /\
  (forall w2 d1 t1,
     current_scene w ∈ gamescene (settings w) ->
     handle_event w OBS_FRONTEND_EVENT_SCENE_CHANGED d = (Return tt, d1, t1) ->
     current_scene w2 = current_scene w ->
     gamescene (settings w2) = gamescene (settings w) ->
     handle_event w2 OBS_FRONTEND_EVENT_SCENE_CHANGED d1 = (Return tt, d1, [])).
Proof.
  split; [apply handle_event_settled|].
  intros w2 d1 t1 Hin Hfirst Hscene Hscenes.
  apply handle_event_settled.
  rewrite Hscene, Hscenes, bool_decide_eq_true_2 by done.
  destruct (in_game_scene d) eqn:Hd.
  - rewrite handle_event_settled in Hfirst
      by (by rewrite Hd, bool_decide_eq_true_2).
    by simplify_eq.
  - rewrite handle_event_start in Hfirst by done.
    destruct (set_game w d) as [[[[]|e] d2] t2]; [|done].
    destruct (log_transition w false d2) as [[[[]|e] d3] t3]; [|done].
    by simplify_eq.
Qed.

(** Without game scenes and with the flag unset, no event does
    anything. *)
Lemma run_without_game_scenes (events : list (world * Z)) (d : data) :
  in_game_scene d = false ->
  Forall (fun ev => gamescene (settings ev.1) = []) events ->
  run events d = (d, []).
Proof.
  intros Hout Hall.
  induction Hall as [|[w event] events Hnone _ IH]; simpl in *; [done|].
  assert (Hstep : handle_event w event d = (Return tt, d, [])).
  { destruct (decide (event = OBS_FRONTEND_EVENT_SCENE_CHANGED)) as [->|Hne].
    - apply handle_event_settled. rewrite Hout, Hnone.
      symmetry. apply bool_decide_eq_false_2, not_elem_of_nil.
    - by apply handle_event_other. }
  by rewrite Hstep, IH.
Qed.

(** C6.  When the list of game scenes is empty at every event, then after
    any sequence of events from the initial state the flag is unset and no
    line, so no START line, has been written. *)
Theorem no_game_scenes_no_start (events : list (world * Z)) :
  Forall (fun ev => gamescene (settings ev.1) = []) events ->
  in_game_scene (run events initial_data).1 = false /\
  written (run events initial_data).2 = [].
Proof.
  intros Hall. by rewrite run_without_game_scenes.
Qed.

(** ** Numerals and timestamps *)

Lemma string_app_cons (c : ascii) (s1 s2 : string) :
  String c s1 +:+ s2 = String c (s1 +:+ s2).
Proof. reflexivity. Qed.

Lemma string_length_app (front back : string) :
  String.length (front +:+ back)
  = (String.length front + String.length back)%nat.
Proof.
  induction front as [|c front IH]; [reflexivity|].
  rewrite string_app_cons. simpl. by rewrite IH.
Qed.

Lemma string_app_assoc (s1 s2 s3 : string) :
  (s1 +:+ s2) +:+ s3 = s1 +:+ (s2 +:+ s3).
Proof.
  induction s1 as [|c s1 IH]; [done|].
  rewrite !string_app_cons. by f_equal.
Qed.

Lemma digits_value_app (s1 s2 : string) (acc : N) :
  digits_value acc (s1 +:+ s2) = digits_value acc s1 ≫= fun a => digits_value a s2.
Proof.
  revert acc. induction s1 as [|c s1 IH]; intros acc; simpl; [done|].
  destruct (digit_value c); [apply IH|done].
Qed.

Lemma line_feeds_app (s1 s2 : string) :
  line_feeds (s1 +:+ s2) = (line_feeds s1 + line_feeds s2)%nat.
Proof. induction s1 as [|c s1 IH]; simpl; [done|]. rewrite IH. lia. Qed.

Lemma digits_no_line_feed (s : string) (acc n : N) :
  digits_value acc s = Some n -> line_feeds s = 0%nat.
Proof.
  revert acc. induction s as [|c s IH]; intros acc; simpl; [done|].
  destruct (digit_value c) eqn:Hc; [|done].
  intros Hrest. rewrite (IH _ Hrest).
  destruct (Ascii.eqb_spec c "010") as [->|]; [discriminate Hc|done].
Qed.

Lemma digit_value_char (r : N) :
  (r < 10)%N -> digit_value (pretty_N_char r) = Some r.
Proof.
  intros Hr. destruct r as [|p]; [reflexivity|].
  do 4 (try destruct p as [p|p|]); try lia; reflexivity.
Qed.

Lemma pretty_N_go_app (k : nat) (x : N) (s : string) :
  (x < 10 ^ N.of_nat k)%N ->
  pretty_N_go x s = pretty_N_go x "" +:+ s.
Proof.
  revert x s. induction k as [|k IH]; intros x s Hx.
  - assert (x = 0%N) as -> by (simpl in Hx; lia). done.
  - destruct (decide (x = 0%N)) as [->|Hpos]; [done|].
    rewrite (pretty_N_go_step x s), (pretty_N_go_step x "") by lia.
    assert (Hdiv : (x `div` 10 < 10 ^ N.of_nat k)%N).
    { apply N.Div0.div_lt_upper_bound.
      rewrite Nat2N.inj_succ, N.pow_succ_r' in Hx. lia. }
    rewrite (IH _ (String _ s) Hdiv), (IH _ (String _ "") Hdiv).
    by rewrite string_app_assoc.
Qed.

Lemma pretty_N_go_digits (k : nat) (x : N) :
  (x < 10 ^ N.of_nat k)%N ->
  (String.length (pretty_N_go x "") <= k)%nat /\
  forall acc,
    digits_value acc (pretty_N_go x "")
    = Some (acc * 10 ^ N.of_nat (String.length (pretty_N_go x "")) + x)%N.
Proof.
  revert x. induction k as [|k IH]; intros x Hx.
  - assert (x = 0%N) as -> by (simpl in Hx; lia).
    split; [done|]. intros acc. simpl. f_equal. lia.
  - destruct (decide (x = 0%N)) as [->|Hpos].
    { split; [simpl; lia|]. intros acc. simpl. f_equal. lia. }
    assert (Hdiv : (x `div` 10 < 10 ^ N.of_nat k)%N).
    { apply N.Div0.div_lt_upper_bound.
      rewrite Nat2N.inj_succ, N.pow_succ_r' in Hx. lia. }
    rewrite (pretty_N_go_step x "") by lia.
    rewrite (pretty_N_go_app k) by done.
    destruct (IH _ Hdiv) as [Hlen Hval].
    rewrite string_length_app. simpl. split; [lia|].
    intros acc. rewrite digits_value_app, Hval. simpl.
    rewrite digit_value_char by (apply N.mod_lt; lia).
    f_equal. rewrite Nat.add_1_r, Nat2N.inj_succ, N.pow_succ_r'.
    pose proof (N.div_mod x 10 ltac:(lia)). lia.
Qed.

Lemma zeros_length (m : nat) : String.length (zeros m) = m.
Proof.
  induction m as [|m IH]; [done|].
  change (zeros (S m)) with (String "0" (zeros m)). simpl. by rewrite IH.
Qed.

Lemma zeros_value (m : nat) (s : string) :
  digits_value 0 (zeros m +:+ s) = digits_value 0 s.
Proof.
  induction m as [|m IH]; [done|].
  change (zeros (S m) +:+ s) with (String "0" (zeros m +:+ s)). exact IH.
Qed.

Lemma zfill_numeral (width : nat) (n : Z) :
  (0 < width)%nat ->
  0 <= n < 10 ^ Z.of_nat width ->
  numeral width n (zfill width n).
Proof.
  intros Hwidth [Hlow Hhigh]. unfold numeral, zfill.
  destruct n as [|p|p]; [|clear Hlow|lia].
  - change (pretty 0) with "0". simpl String.length.
    rewrite string_length_app, zeros_length, zeros_value. simpl.
    split; [lia|done].
  - change (pretty (Z.pos p)) with (pretty_N_go (N.pos p) "").
    destruct (pretty_N_go_digits width (N.pos p)) as [Hlen Hval].
    { apply N2Z.inj_lt. rewrite N2Z.inj_pow, nat_N_Z. exact Hhigh. }
    rewrite string_length_app, zeros_length, zeros_value, Hval.
    split; [lia|]. split; [|lia]. simpl. f_equal.
Qed.

Lemma isoformat_iso8601 (t : datetime) :
  datetime_valid t -> iso8601 t (isoformat t).
Proof.
  intros (Hyear & Hmonth & Hday & Hhour & Hminute & Hsecond & Hmicro).
  exists (zfill 4 (year t)), (zfill 2 (month t)), (zfill 2 (day t)),
    (zfill 2 (hour t)), (zfill 2 (minute t)), (zfill 2 (second t)),
    (if microsecond t =? 0 then "" else "." +:+ zfill 6 (microsecond t)).
  split; [reflexivity|].
  repeat (split; [apply zfill_numeral; [lia|simpl; lia]|]).
  destruct (decide (microsecond t = 0)) as [->|Hne]; [done|].
  apply Z.eqb_neq in Hne as ->.
  eexists. split; [done|]. apply zfill_numeral; [lia|simpl; lia].
Qed.

Lemma numeral_no_line_feed (width : nat) (n : Z) (s : string) :
  numeral width n s -> line_feeds s = 0%nat.
Proof. intros (_ & Hvalue & _). by eapply digits_no_line_feed. Qed.

Lemma iso8601_no_line_feed (t : datetime) (s : string) :
  iso8601 t s -> line_feeds s = 0%nat.
Proof.
  intros (yyyy & mo & dd & hh & mi & ss & fraction & -> & Hy & Hmo & Hd
          & Hh & Hmi & Hs & Hfraction).
  rewrite !line_feeds_app.
  rewrite (numeral_no_line_feed _ _ _ Hy), (numeral_no_line_feed _ _ _ Hmo),
    (numeral_no_line_feed _ _ _ Hd), (numeral_no_line_feed _ _ _ Hh),
    (numeral_no_line_feed _ _ _ Hmi), (numeral_no_line_feed _ _ _ Hs).
  destruct (decide (microsecond t = 0)).
  - by subst fraction.
  - destruct Hfraction as (ffffff & -> & Hf).
    rewrite line_feeds_app, (numeral_no_line_feed _ _ _ Hf). done.
Qed.

(** ** The log writer *)

(** C7, as the code has it.  Every call of the log writer starts by opening
    the configured file in append mode.  When the file opens, the call
    makes exactly one write, of the text [[<timestamp>] <START|END> <game
    id>] followed by a line feed, where the timestamp is the ISO 8601 text
    of the current time and the game id is the text of the stored value
    ([None] when there is none), and it closes the file afterwards, whether
    the write succeeded or raised.  The text is one line when the text of
    the game id has no line feed in it.  When the file does not open, the
    exception of [open] is raised and nothing is written. *)
Theorem log_transition_appends_one_line (w : world) (end_ : bool) (d : data) :
  datetime_valid (now w) ->
  let path := logfile (settings w) in
  let r := log_transition w end_ d in
  exists timestamp game,
    iso8601 (now w) timestamp /\
    game = py_str (current_game d) /\
    (current_game d = PyNone -> game = "None") /\
    (forall id, current_game d = PyStr id -> game = id) /\
    let text :=
      "[" +:+ timestamp +:+ "] "
      +:+ (if end_ then "END" else "START") +:+ " "
      +:+ game +:+ String "010"%char EmptyString in
    (exists ok, head r.2 = Some (Open path "a" ok)) /\
    (open_append w path = None ->
     (exists ok, r.2 = [Open path "a" true; Write path text ok; Close path]) /\
     (file_write w path text = None ->
      r = (Return tt, d,
           [Open path "a" true; Write path text true; Close path])) /\
     (forall e,
        file_write w path text = Some e ->
        r = (Raise e, d,
             [Open path "a" true; Write path text false; Close path]))) /\
    (forall e,
       open_append w path = Some e ->
       r = (Raise e, d, [Open path "a" false]) /\ written r.2 = []) /\
    (line_feeds game = 0%nat -> line_feeds text = 1%nat).
Proof.
  intros Hvalid path r. subst r.
  exists (isoformat (now w)), (py_str (current_game d)).
  pose proof (isoformat_iso8601 _ Hvalid) as Hiso.
  split_and!; [done|done|by intros ->|by intros id ->|].
  intros text.
  assert (Htext : format_line (isoformat (now w))
                    (if end_ then "END" else "START") (current_game d)
                  = text) by reflexivity.
  rewrite log_transition_run. simpl. rewrite Htext. fold path.
  split; [|split; [|split]].
  - destruct (open_append w path); [by eexists|].
    destruct (file_write w path text); by eexists.
  - intros ->. destruct (file_write w path text) as [e|].
    + split; [by eexists|]. split; [done|]. intros e' ?. by simplify_eq.
    + split; [by eexists|]. split; [done|]. intros e' ?. by simplify_eq.
  - intros e ->. done.
  - intros Hgame. subst text.
    rewrite !line_feeds_app, (iso8601_no_line_feed _ _ Hiso), Hgame.
    by destruct end_.
Qed.

(** ** The game id resolver *)


(** ** The stored game id *)




(** ** Other events *)

(** C10.  On an event other than the scene change, the handler returns at
    once: no request, no write, no output, and the state as it was. *)
Theorem other_events_ignored (w : world) (event : Z) (d : data) :
  event <> OBS_FRONTEND_EVENT_SCENE_CHANGED ->
  handle_event w event d = (Return tt, d, []).
Proof.
  intros Hne. unfold handle_event.
  destruct (Z.eqb_spec event OBS_FRONTEND_EVENT_SCENE_CHANGED); done.
Qed.

(** * Further properties of the handler *)

(** The case analysis of the handler: the event, the flag, the membership
    of the active scene; then the outcomes of the lookup and of the
    append. *)
Ltac scene_change_cases w d :=
  let Hflag := fresh "Hflag" in
  let Hin := fresh "Hin" in
  destruct (in_game_scene d) eqn:Hflag;
  destruct (decide (current_scene w ∈ gamescene (settings w))) as [Hin|Hin];
  [ rewrite (handle_event_settled w d)
      by (by rewrite Hflag, bool_decide_eq_true_2)
  | rewrite (handle_event_end w d Hflag Hin)
  | rewrite (handle_event_start w d Hflag Hin)
  | rewrite (handle_event_settled w d)
      by (by rewrite Hflag, bool_decide_eq_false_2) ].

Ltac handler_cases scene_changed w event d :=
  let Hevent := fresh "Hevent" in
  destruct (decide (event = scene_changed)) as [Hevent|Hevent];
  [ rewrite Hevent; scene_change_cases w d
  | rewrite (handle_event_other w event d) by done ].

Ltac outcome_cases :=
  repeat first
    [ rewrite set_game_run
    | rewrite log_transition_run
    | progress simpl
    | match goal with
      | |- context [match requests_get ?w ?u with _ => _ end] =>
          destruct (requests_get w u) as [?resp|?e] eqn:?
      | |- context [if status_code ?r =? 200 then _ else _] =>
          destruct (Z.eqb_spec (status_code r) 200)
      | |- context [match json ?r with _ => _ end] =>
          destruct (json r) as [?doc|?e] eqn:?
      | |- context [match subscript ?doc ?k with _ => _ end] =>
          destruct (subscript doc k) as [?v|?e] eqn:?
      | |- context [match open_append ?w ?p with _ => _ end] =>
          destruct (open_append w p) as [?e|] eqn:?
      | |- context [match file_write ?w ?p ?l with _ => _ end] =>
          destruct (file_write w p l) as [?e|] eqn:?
      end ].

(** X1.  The loop that reads the host's array builds the list of its
    values: the same names, in the same order, duplicates included. *)
Theorem game_scene_array_copied (game_scene_array : list string) :
  read_game_scenes game_scene_array = game_scene_array /\
  forall i, read_game_scenes game_scene_array !! i = game_scene_array !! i.
Proof.
  assert (Heq : read_game_scenes game_scene_array = game_scene_array)
    by apply (read_game_scenes_app [] game_scene_array []).
  split; [done|]. intros i. by rewrite Heq.
Qed.

(** X2.  The handler uses the game scenes as a set: with another array of
    the same members, in any order and with any repetition, it does the
    same. *)
Theorem game_scenes_used_as_set (w : world) (scenes : list string)
    (event : Z) (d : data) :
  (forall name, name ∈ scenes <-> name ∈ gamescene (settings w)) ->
  handle_event (with_game_scenes w scenes) event d = handle_event w event d.
Proof.
  intros Hsame. unfold handle_event.
  rewrite !read_game_scenes_eq. simpl.
  rewrite (bool_decide_ext _ _ (Hsame (current_scene w))).
  reflexivity.
Qed.

(** X3.  When the handler returns from a scene change, the flag tells
    whether the active scene is a game scene; a second notification of the
    same scene, under the same set of game scenes, then does nothing. *)
Theorem returned_scene_change_settles (w : world) (d d' : data)
    (t : list effect) :
  handle_event w OBS_FRONTEND_EVENT_SCENE_CHANGED d = (Return tt, d', t) ->
  in_game_scene d' = bool_decide (current_scene w ∈ gamescene (settings w)) /\
  forall w2,
    current_scene w2 = current_scene w ->
    (forall name,
       name ∈ gamescene (settings w2) <-> name ∈ gamescene (settings w)) ->
    handle_event w2 OBS_FRONTEND_EVENT_SCENE_CHANGED d' = (Return tt, d', []).
Proof.
  intros Hrun.
  assert (Hflag' : in_game_scene d'
                   = bool_decide (current_scene w ∈ gamescene (settings w))).
  { revert Hrun.
    scene_change_cases w d;
      try done; outcome_cases; intros; simplify_eq; simpl;
      rewrite ?bool_decide_eq_true_2, ?bool_decide_eq_false_2 by done;
      done. }
  split; [done|]. intros w2 Hscene Hscenes.
  apply handle_event_settled.
  rewrite Hflag', Hscene. apply bool_decide_ext. symmetry. apply Hscenes.
Qed.

(** X4.  The flag and the log move together.  An invocation of the handler
    either returns, has written exactly one line and has inverted the flag,
    or has written nothing and has left the flag as it was; the second is
    the case of every invocation that raises. *)
Theorem flag_inverted_with_line (w : world) (event : Z) (d : data) :
  let r := handle_event w event d in
  (r.1.1 = Return tt /\
   in_game_scene r.1.2 = negb (in_game_scene d) /\
   length (written r.2) = 1%nat) \/
  (in_game_scene r.1.2 = in_game_scene d /\ written r.2 = []).
Proof.
  intros r. subst r.
  handler_cases OBS_FRONTEND_EVENT_SCENE_CHANGED w event d;
    outcome_cases; rewrite ?Hflag; auto.
Qed.

(** X5.  The endpoint is contacted exactly when a start transition is due
    (a scene change, the flag unset, the active scene a game scene), and
    then once, at the configured URL; in particular never while the flag is
    set. *)
Theorem request_only_on_due_start (w : world) (event : Z) (d : data) :
  requests (handle_event w event d).2 =
    if (event =? OBS_FRONTEND_EVENT_SCENE_CHANGED)
       && negb (in_game_scene d)
       && bool_decide (current_scene w ∈ gamescene (settings w))
    then [apiurl (settings w)]
    else [].
Proof.
  handler_cases OBS_FRONTEND_EVENT_SCENE_CHANGED w event d;
    rewrite ?Z.eqb_refl, ?Hflag;
    rewrite ?bool_decide_eq_true_2, ?bool_decide_eq_false_2 by done;
    outcome_cases; try done.
  by apply Z.eqb_neq in Hevent as ->.
Qed.

(** X6.  The console output of an invocation is the message of the
    transition that is due, followed for a start by the failure message
    when a response arrives whose status is not 200, and nothing else.  So
    the failure message is printed exactly when a start transition is due
    and such a response arrives, and an exception, of the lookup or of the
    append, adds nothing to the console. *)
Theorem failure_message_only_for_status (w : world) (event : Z) (d : data) :
  printed (handle_event w event d).2 =
    (if (event =? OBS_FRONTEND_EVENT_SCENE_CHANGED)
        && negb (in_game_scene d)
        && bool_decide (current_scene w ∈ gamescene (settings w))
     then
       "Entering game"
       :: match requests_get w (apiurl (settings w)) with
          | Return resp =>
              if status_code resp =? 200 then []
              else ["Failed to get data from API"]
          | Raise _ => []
          end
     else if (event =? OBS_FRONTEND_EVENT_SCENE_CHANGED)
             && in_game_scene d
             && negb (bool_decide
                        (current_scene w ∈ gamescene (settings w)))
     then ["Leaving game"]
     else []) /\
  ("Failed to get data from API" ∈ printed (handle_event w event d).2 <->
   event = OBS_FRONTEND_EVENT_SCENE_CHANGED /\
   in_game_scene d = false /\
   current_scene w ∈ gamescene (settings w) /\
   exists resp,
     requests_get w (apiurl (settings w)) = Return resp /\
     status_code resp <> 200).
Proof.
  split.
  - handler_cases OBS_FRONTEND_EVENT_SCENE_CHANGED w event d;
      rewrite ?Z.eqb_refl, ?Hflag;
      rewrite ?bool_decide_eq_true_2, ?bool_decide_eq_false_2 by done;
      outcome_cases; try done.
    all: by apply Z.eqb_neq in Hevent as ->.
  - handler_cases OBS_FRONTEND_EVENT_SCENE_CHANGED w event d;
      outcome_cases; unfold printed; simpl;
      (split;
       [ intros Hmsg; repeat (apply elem_of_cons in Hmsg as [Hmsg|Hmsg]);
         try discriminate Hmsg; try (by apply elem_of_nil in Hmsg);
         eauto 10
       | intros (? & ? & ? & resp' & ? & ?); try congruence;
         simplify_eq; try done; set_solver ]).
Qed.

(** X7.  A start transition whose lookup yields a game id logs that id,
    whatever was stored before: the START line carries the new id, which is
    also the one stored afterwards. *)
Theorem start_line_carries_fresh_id (w : world) (d : data) (v : pyval) :
  in_game_scene d = false ->
  current_scene w ∈ gamescene (settings w) ->
  lookup_yields w v ->
  append_succeeds w (format_line (isoformat (now w)) "START" v) ->
  handle_event w OBS_FRONTEND_EVENT_SCENE_CHANGED d =
    (Return tt,
     {| in_game_scene := true; current_game := v |},
     [Print "Entering game"; Get (apiurl (settings w));
      Open (logfile (settings w)) "a" true;
      Write (logfile (settings w))
        (format_line (isoformat (now w)) "START" v) true;
      Close (logfile (settings w))]).
Proof.
  intros Hflag Hin (resp & doc & Hget & Hstatus & Hjson & Hsub)
    [Hopen Hwrite].
  rewrite handle_event_start, set_game_run by done. simpl.
  rewrite Hget, Hstatus, Hjson, Hsub. simpl.
  rewrite log_transition_run. simpl. by rewrite Hopen, Hwrite.
Qed.

(** X8.  A start transition whose lookup yields a game id and whose append
    raises, at [open] or at the write, leaves the new id stored although
    nothing was logged and the flag is still unset. *)
Theorem fetched_id_kept_when_append_raises (w : world) (d : data)
    (v : pyval) (e : exn) :
  in_game_scene d = false ->
  current_scene w ∈ gamescene (settings w) ->
  lookup_yields w v ->
  open_append w (logfile (settings w)) = Some e \/
  open_append w (logfile (settings w)) = None /\
  file_write w (logfile (settings w))
    (format_line (isoformat (now w)) "START" v) = Some e ->
  let r := handle_event w OBS_FRONTEND_EVENT_SCENE_CHANGED d in
  r.1.1 = Raise e /\
  r.1.2 = {| in_game_scene := false; current_game := v |} /\
  written r.2 = [].
Proof.
  intros Hflag Hin (resp & doc & Hget & Hstatus & Hjson & Hsub) Hfail r.
  subst r.
  rewrite handle_event_start, set_game_run by done. simpl.
  rewrite Hget, Hstatus, Hjson, Hsub. simpl.
  rewrite log_transition_run. simpl.
  destruct Hfail as [Hopen|[Hopen Hwrite]].
  - rewrite Hopen. simpl. by rewrite Hflag.
  - rewrite Hopen, Hwrite. simpl. by rewrite Hflag.
Qed.

(** X9.  The resolver on its own: it sends one request to the configured
    URL and touches no file; it never changes the flag; and when it raises,
    the state is as it was. *)
Theorem set_game_frame (w : world) (d : data) :
  let r := set_game w d in
  requests r.2 = [apiurl (settings w)] /\
  Forall (fun e => match e with Get _ | Print _ => True | _ => False end) r.2 /\
  in_game_scene r.1.2 = in_game_scene d /\
  (forall e, r.1.1 = Raise e -> r.1.2 = d).
Proof.
  intros r. subst r. outcome_cases;
    (split; [done|]); (split; [by repeat constructor|]); (split; [done|]);
    intros; by simplify_eq.
Qed.

(** X13.  Settings and clock are read at each event: a line written by an
    invocation goes to the log file configured at that time, is stamped with
    the time of that invocation, is a START line when the flag was unset and
    an END line when it was set, and carries the game id stored
    afterwards. *)
Theorem line_written_from_current_world (w : world) (event : Z) (d : data) :
  let r := handle_event w event d in
  Forall
    (fun pt =>
       pt = (logfile (settings w),
             format_line (isoformat (now w))
               (if in_game_scene d then "END" else "START")
               (current_game r.1.2)))
    (written r.2).
Proof.
  intros r. subst r.
  handler_cases OBS_FRONTEND_EVENT_SCENE_CHANGED w event d;
    outcome_cases; rewrite ?Hflag; by repeat constructor.
Qed.

(** X14.  A transition that raised is due again.  When an invocation for a
    scene change raises, the next scene change to a scene on the same side
    (a game scene again, or again none) starts the transition over: it
    prints the message of the transition first, and for a start it sends
    the request again. *)
Theorem raised_transition_starts_over (w w2 : world) (d d' : data)
    (t : list effect) (e : exn) :
  handle_event w OBS_FRONTEND_EVENT_SCENE_CHANGED d = (Raise e, d', t) ->
  (current_scene w2 ∈ gamescene (settings w2) <->
   current_scene w ∈ gamescene (settings w)) ->
  let again := handle_event w2 OBS_FRONTEND_EVENT_SCENE_CHANGED d' in
  head again.2 =
    Some (Print (if bool_decide (current_scene w ∈ gamescene (settings w))
                 then "Entering game" else "Leaving game")) /\
  requests again.2 =
    if bool_decide (current_scene w ∈ gamescene (settings w))
    then [apiurl (settings w2)] else [].
Proof.
  intros Hrun Hside again. subst again.
  assert (Hstate : in_game_scene d' = in_game_scene d /\
                   in_game_scene d
                   = negb (bool_decide
                             (current_scene w ∈ gamescene (settings w)))).
  { revert Hrun. scene_change_cases w d; try done;
      rewrite ?bool_decide_eq_true_2, ?bool_decide_eq_false_2 by done;
      outcome_cases; intros; simplify_eq; simpl; by rewrite ?Hflag. }
  destruct Hstate as [Hsame Hdue]. rewrite <- Hsame in Hdue. clear Hrun Hsame.
  destruct (decide (current_scene w ∈ gamescene (settings w))) as [Hin|Hout].
  - rewrite bool_decide_eq_true_2 in * by done. simpl in Hdue.
    rewrite handle_event_start by tauto.
    pose proof (set_game_trace w2 d') as [Hreq _].
    destruct (set_game w2 d') as [[[[]|e1] d1] t1]; simpl in *; [|done].
    pose proof (log_transition_run w2 false d1) as Hlog. simpl in Hlog.
    destruct (log_transition w2 false d1) as [[[[]|e2] d2] t2]; simpl;
      (split; [done|]); rewrite requests_app, Hreq;
      destruct (open_append w2 _); [|destruct (file_write w2 _ _)| |
        destruct (file_write w2 _ _)]; by simplify_eq.
  - rewrite bool_decide_eq_false_2 in * by done. simpl in Hdue.
    rewrite handle_event_end by tauto.
    pose proof (log_transition_run w2 true d') as Hlog. simpl in Hlog.
    destruct (log_transition w2 true d') as [[[[]|e2] d2] t2]; simpl;
      (split; [done|]);
      destruct (open_append w2 _); [|destruct (file_write w2 _ _)| |
        destruct (file_write w2 _ _)]; by simplify_eq.
Qed.

(** ** Sequences of events *)

Lemma handle_event_log_shape (w : world) (event : Z) (d : data)
    (texts : list string) :
  log_shape (open_game (handle_event w event d).1.2) texts ->
  log_shape (open_game d) ((written (handle_event w event d).2).*2 ++ texts).
Proof.
  handler_cases OBS_FRONTEND_EVENT_SCENE_CHANGED w event d;
    outcome_cases; unfold open_game; simpl; rewrite ?Hflag;
    intros Hrest; try done; by constructor.
Qed.

Lemma handle_event_parity (w : world) (event : Z) (d : data) :
  in_game_scene (handle_event w event d).1.2 =
    xorb (in_game_scene d)
      (Nat.odd (length (written (handle_event w event d).2))).
Proof.
  handler_cases OBS_FRONTEND_EVENT_SCENE_CHANGED w event d;
    outcome_cases; rewrite ?Hflag; try done; by destruct (in_game_scene d).
Qed.

(** X10.  The log of any sequence of events is well formed.  From a state
    with the flag unset, the lines written are START and END lines in
    alternation, beginning with START, and every END line carries the game
    id of the START line before it (from a state with the flag set, the log
    begins with the END line for the stored id).  The flag at the end is
    set exactly when the number of lines written is odd. *)
Theorem run_log_well_formed (events : list (world * Z)) (d : data) :
  log_shape (open_game d) (written (run events d).2).*2 /\
  in_game_scene (run events d).1 =
    xorb (in_game_scene d) (Nat.odd (length (written (run events d).2))).
Proof.
  revert d. induction events as [|[w event] events IH]; intros d; simpl.
  { split; [constructor|]. by destruct (in_game_scene d). }
  pose proof (handle_event_log_shape w event d) as Hshape.
  pose proof (handle_event_parity w event d) as Hparity.
  destruct (handle_event w event d) as [[o d1] t1]; simpl in *.
  destruct (IH d1) as [IHshape IHparity].
  destruct (run events d1) as [d2 t2]; simpl in *.
  rewrite written_app, fmap_app, length_app, Nat.odd_add.
  split; [by apply Hshape|].
  rewrite IHparity, Hparity. by rewrite xorb_assoc.
Qed.

Lemma file_discipline_app (opened : option string) (t1 t2 : list effect) :
  file_discipline opened t1 = true ->
  file_discipline opened (t1 ++ t2) = file_discipline None t2.
Proof.
  revert opened. induction t1 as [|e t1 IH]; intros opened Hfirst; simpl in *.
  - apply bool_decide_eq_true in Hfirst. by subst.
  - destruct e; simpl in *; try (by apply IH);
      apply andb_true_iff in Hfirst as [Hhere Hrest];
      rewrite Hhere; simpl; by apply IH.
Qed.

Lemma handle_event_file_discipline (w : world) (event : Z) (d : data) :
  file_discipline None (handle_event w event d).2 = true.
Proof.
  handler_cases OBS_FRONTEND_EVENT_SCENE_CHANGED w event d;
    outcome_cases; rewrite ?bool_decide_eq_true_2 by done; done.
Qed.

(** X11.  Over any sequence of events the script keeps its file discipline:
    every file is opened in append mode, at most one file is open at a
    time, nothing is written except to the open file, and every file that
    was opened has been closed, also when the write raised. *)
Theorem run_file_discipline (events : list (world * Z)) (d : data) :
  file_discipline None (run events d).2 = true.
Proof.
  revert d. induction events as [|[w event] events IH]; intros d; simpl.
  { done. }
  pose proof (handle_event_file_discipline w event d) as Hstep.
  destruct (handle_event w event d) as [[o d1] t1]; simpl in *.
  specialize (IH d1).
  destruct (run events d1) as [d2 t2]; simpl in *.
  by rewrite file_discipline_app.
Qed.

(** X12.  Events other than the scene change can be left out of a sequence:
    only its scene changes determine the final state and the trace. *)
Theorem run_scene_changes_only (events : list (world * Z)) (d : data) :
  run (scene_changes OBS_FRONTEND_EVENT_SCENE_CHANGED events) d
  = run events d.
Proof.
  revert d. unfold scene_changes.
  induction events as [|[w event] events IH]; intros d; [done|].
  rewrite filter_cons. simpl.
  destruct (decide (event = OBS_FRONTEND_EVENT_SCENE_CHANGED)) as [->|Hne].
  - simpl. destruct (handle_event _ _ _) as [[o d1] t1].
    by rewrite IH.
  - rewrite (handle_event_other w event d) by done.
    rewrite IH. by destruct (run events d).
Qed.

End Tagger.

(** * The properties at the concrete configuration *)

(** Membership of a scene name among the configured scenes, and its
    negation, are settled by evaluating the decision procedure. *)
Ltac by_evaluation := apply (bool_decide_unpack _); vm_compute; exact I.

(** The example of the specification: with the game scene "Game Capture",
    the scenes "Lobby", "Game Capture", "Lobby" give nothing, a START line
    after one lookup, and an END line; the flag ends unset. *)
Example lobby_game_lobby :
  run example_scene_changed
    [(example_world "Lobby" (Return reply_ok), example_scene_changed);
     (example_world "Game Capture" (Return reply_ok), example_scene_changed);
     (example_world "Lobby" (Return reply_ok), example_scene_changed)]
    initial_data
  = ({| in_game_scene := false; current_game := PyStr "sm64-120" |},
     [Print "Entering game"; Get "http://localhost:8080/api";
      Open "tagger.log" "a" true;
      Write "tagger.log"
        ("[2024-03-09T17:05:42.001234] START sm64-120" +:+ newline) true;
      Close "tagger.log";
      Print "Leaving game";
      Open "tagger.log" "a" true;
      Write "tagger.log"
        ("[2024-03-09T17:05:42.001234] END sm64-120" +:+ newline) true;
      Close "tagger.log"]).
Proof. vm_compute. reflexivity. Qed.

(** C1.  The failing input: the flag unset, a writable log file, the game
    scene "Game Capture" becoming active, and a request that raises.  The
    exception leaves the handler right after the request: the log writer is
    not called, no START line is written and the flag stays unset, where
    the claim has the START line written and the flag set. *)
Theorem lookup_exception_loses_start :
  handle_event example_scene_changed
    (example_world "Game Capture" (Raise RequestException))
    example_scene_changed initial_data
  = (Raise RequestException, initial_data,
     [Print "Entering game"; Get "http://localhost:8080/api"]) /\
  written
    (handle_event example_scene_changed
       (example_world "Game Capture" (Raise RequestException))
       example_scene_changed initial_data).2 = [] /\
  in_game_scene
    (handle_event example_scene_changed
       (example_world "Game Capture" (Raise RequestException))
       example_scene_changed initial_data).1.2 = false.
Proof. repeat split; vm_compute; reflexivity. Qed.

(** The best-effort policy of the specification does not hold of the
    handler on a network error: with a writable log file, a flag that is
    unset and a game scene becoming active, the start is not recorded. *)
Lemma network_error_aborts_start :
  ~ start_survives_failed_lookup example_scene_changed
      (example_world "Game Capture" (Raise RequestException)) initial_data.
Proof.
  intros Hclaim.
  destruct Hclaim as [_ Hflag].
  - reflexivity.
  - by_evaluation.
  - right. exists RequestException. left. reflexivity.
  - vm_compute in Hflag. discriminate Hflag.
Qed.

(** The same for a 200 response whose body is not JSON, and for a document
    without the field. *)
Example malformed_body_aborts_start :
  handle_event example_scene_changed
    (example_world "Game Capture" (Return reply_malformed))
    example_scene_changed initial_data
  = (Raise JSONDecodeError, initial_data,
     [Print "Entering game"; Get "http://localhost:8080/api"]).
Proof. vm_compute. reflexivity. Qed.

Example missing_field_aborts_start :
  handle_event example_scene_changed
    (example_world "Game Capture" (Return reply_without_field))
    example_scene_changed initial_data
  = (Raise (KeyError "current_game_id"), initial_data,
     [Print "Entering game"; Get "http://localhost:8080/api"]).
Proof. vm_compute. reflexivity. Qed.

(** A 404 answer lets the start through, with [None] as game id; a network
    error stops it. *)
Lemma failed_lookup_start_transition_witness :
  handle_event example_scene_changed
    (example_world "Game Capture" (Return reply_not_found))
    example_scene_changed initial_data
  = (Return tt,
     {| in_game_scene := true; current_game := PyNone |},
     [Print "Entering game"; Get "http://localhost:8080/api";
      Print "Failed to get data from API";
      Open "tagger.log" "a" true;
      Write "tagger.log"
        ("[2024-03-09T17:05:42.001234] START None" +:+ newline) true;
      Close "tagger.log"]) /\
  handle_event example_scene_changed
    (example_world "Game Capture" (Raise RequestException))
    example_scene_changed initial_data
  = (Raise RequestException, initial_data,
     [Print "Entering game"; Get "http://localhost:8080/api"]).
Proof.
  split.
  - apply (proj1 (failed_lookup_start_transition example_scene_changed
                    (example_world "Game Capture" (Return reply_not_found))
                    initial_data eq_refl
                    ltac:(by_evaluation)) reply_not_found).
    + reflexivity.
    + vm_compute. discriminate.
    + split; reflexivity.
  - apply (proj2 (failed_lookup_start_transition example_scene_changed
                    (example_world "Game Capture" (Raise RequestException))
                    initial_data eq_refl
                    ltac:(by_evaluation)) RequestException).
    left. reflexivity.
Defined.

(** A log file that cannot be opened: the exception of [open] leaves the
    handler.  The game id of the lookup is stored by then, the flag is not
    set, and the next scene change to a game scene starts over. *)
Example read_only_log_raises :
  handle_event example_scene_changed
    (example_world_read_only "Game Capture" (Return reply_ok))
    example_scene_changed initial_data
  = (Raise OSError,
     {| in_game_scene := false; current_game := PyStr "sm64-120" |},
     [Print "Entering game"; Get "http://localhost:8080/api";
      Open "tagger.log" "a" false]).
Proof. vm_compute. reflexivity. Qed.

(** C3, as the specification states it, fails when the log file cannot be
    opened: the resolver has returned, but no START line is written and the
    flag stays unset. *)
Lemma start_not_completed_on_read_only_log :
  ~ start_transition_completes example_scene_changed
      (example_world_read_only "Game Capture" (Return reply_ok))
      initial_data.
Proof.
  intros Hclaim. destruct Hclaim as (_ & _ & Hflag).
  - reflexivity.
  - by_evaluation.
  - vm_compute in Hflag. discriminate Hflag.
Qed.

(** A start transition with a successful lookup, with a log file that
    takes the line and with one that cannot be opened. *)
Lemma start_transition_sequence_witness :
  requests
    (handle_event example_scene_changed
       (example_world "Game Capture" (Return reply_ok))
       example_scene_changed initial_data).2
  = ["http://localhost:8080/api"] /\
  handle_event example_scene_changed
    (example_world "Game Capture" (Return reply_ok))
    example_scene_changed initial_data
  = (Return tt,
     {| in_game_scene := true; current_game := PyStr "sm64-120" |},
     [Print "Entering game"; Get "http://localhost:8080/api";
      Open "tagger.log" "a" true;
      Write "tagger.log"
        ("[2024-03-09T17:05:42.001234] START sm64-120" +:+ newline) true;
      Close "tagger.log"]) /\
  (handle_event example_scene_changed
     (example_world_read_only "Game Capture" (Return reply_ok))
     example_scene_changed initial_data).1
  = (Raise OSError,
     {| in_game_scene := false; current_game := PyStr "sm64-120" |}).
Proof.
  pose proof (start_transition_sequence example_scene_changed
                (example_world "Game Capture" (Return reply_ok))
                initial_data eq_refl ltac:(by_evaluation))
    as [Hrequests Hrun].
  split; [exact Hrequests|]. split.
  - destruct (Hrun {| in_game_scene := false;
                      current_game := PyStr "sm64-120" |}
                [Get "http://localhost:8080/api"]) as [Hdone _].
    + vm_compute. reflexivity.
    + destruct Hdone as [Hresult _]; [split; reflexivity|exact Hresult].
  - pose proof (start_transition_sequence example_scene_changed
                  (example_world_read_only "Game Capture" (Return reply_ok))
                  initial_data eq_refl ltac:(by_evaluation))
      as [_ Hrun'].
    destruct (Hrun' {| in_game_scene := false;
                       current_game := PyStr "sm64-120" |}
                [Get "http://localhost:8080/api"]) as [_ Hraised].
    + vm_compute. reflexivity.
    + destruct (Hraised OSError) as [Hresult _];
        [left; reflexivity|exact Hresult].
Defined.

(** C4, as the specification states it, fails when the log file cannot be
    opened: no END line is written and the flag stays set. *)
Lemma end_not_completed_on_read_only_log :
  ~ end_transition_completes example_scene_changed
      (example_world_read_only "Lobby" (Return reply_ok))
      {| in_game_scene := true; current_game := PyStr "sm64-120" |}.
Proof.
  intros Hclaim. destruct Hclaim as (_ & _ & Hflag).
  - reflexivity.
  - by_evaluation.
  - vm_compute in Hflag. discriminate Hflag.
Qed.

(** An end transition: the stored game id is logged, no request is sent;
    and the same with a log file that cannot be opened. *)
Lemma end_transition_sequence_witness :
  handle_event example_scene_changed
    (example_world "Lobby" (Return reply_ok))
    example_scene_changed
    {| in_game_scene := true; current_game := PyStr "sm64-120" |}
  = (Return tt,
     {| in_game_scene := false; current_game := PyStr "sm64-120" |},
     [Print "Leaving game";
      Open "tagger.log" "a" true;
      Write "tagger.log"
        ("[2024-03-09T17:05:42.001234] END sm64-120" +:+ newline) true;
      Close "tagger.log"]) /\
  (handle_event example_scene_changed
     (example_world_read_only "Lobby" (Return reply_ok))
     example_scene_changed
     {| in_game_scene := true; current_game := PyStr "sm64-120" |}).1
  = (Raise OSError,
     {| in_game_scene := true; current_game := PyStr "sm64-120" |}).
Proof.
  split.
  - destruct (end_transition_sequence example_scene_changed
                (example_world "Lobby" (Return reply_ok))
                {| in_game_scene := true; current_game := PyStr "sm64-120" |}
                eq_refl ltac:(by_evaluation))
      as (_ & _ & Hrun & _).
    destruct Hrun as [Hresult _]; [split; reflexivity|exact Hresult].
  - destruct (end_transition_sequence example_scene_changed
                (example_world_read_only "Lobby" (Return reply_ok))
                {| in_game_scene := true; current_game := PyStr "sm64-120" |}
                eq_refl ltac:(by_evaluation))
      as (_ & _ & _ & Hraised).
    destruct (Hraised OSError) as [Hresult _];
      [left; reflexivity|exact Hresult].
Defined.

(** "Lobby" before any game, and "Game Capture" a second time. *)
Lemma settled_scene_change_is_noop_witness :
  handle_event example_scene_changed
    (example_world "Lobby" (Return reply_ok))
    example_scene_changed initial_data
  = (Return tt, initial_data, []) /\
  handle_event example_scene_changed
    (example_world "Game Capture" (Return reply_not_found))
    example_scene_changed
    {| in_game_scene := true; current_game := PyStr "sm64-120" |}
  = (Return tt,
     {| in_game_scene := true; current_game := PyStr "sm64-120" |}, []).
Proof.
  split.
  - apply (proj1 (settled_scene_change_is_noop example_scene_changed
                    (example_world "Lobby" (Return reply_ok)) initial_data)).
    vm_compute. reflexivity.
  - apply (proj2 (settled_scene_change_is_noop example_scene_changed
                    (example_world "Game Capture" (Return reply_ok))
                    initial_data)
             (example_world "Game Capture" (Return reply_not_found))
             {| in_game_scene := true; current_game := PyStr "sm64-120" |}
             [Print "Entering game"; Get "http://localhost:8080/api";
              Open "tagger.log" "a" true;
              Write "tagger.log"
                ("[2024-03-09T17:05:42.001234] START sm64-120" +:+ newline)
                true;
              Close "tagger.log"]).
    + by_evaluation.
    + vm_compute. reflexivity.
    + reflexivity.
    + reflexivity.
Defined.

(** Three events under settings without game scenes. *)
Lemma no_game_scenes_no_start_witness :
  in_game_scene
    (run example_scene_changed
       [(example_world_no_scenes "Game Capture", example_scene_changed);
        (example_world_no_scenes "Lobby", example_scene_changed);
        (example_world_no_scenes "Game Capture", 3)]
       initial_data).1 = false /\
  written
    (run example_scene_changed
       [(example_world_no_scenes "Game Capture", example_scene_changed);
        (example_world_no_scenes "Lobby", example_scene_changed);
        (example_world_no_scenes "Game Capture", 3)]
       initial_data).2 = [].
Proof.
  apply (no_game_scenes_no_start example_scene_changed).
  repeat constructor.
Defined.

(** C7, as the specification states it, fails when the log file cannot be
    opened: that call of the log writer writes nothing. *)
Lemma read_only_log_writes_no_line :
  ~ writes_one_line (example_world_read_only "Game Capture" (Return reply_ok))
      false initial_data.
Proof. intros [text Hwritten]. vm_compute in Hwritten. discriminate. Qed.

Lemma example_time_valid : datetime_valid example_time.
Proof. unfold datetime_valid. simpl. lia. Qed.

(** The START line for a state without game id: one write of a text that
    ends in a line feed and has no other, then the file is closed. *)
Lemma log_transition_appends_one_line_witness :
  datetime_valid example_time /\
  exists timestamp,
    iso8601 example_time timestamp /\
    log_transition (example_world "Game Capture" (Return reply_ok)) false
      initial_data
    = (Return tt, initial_data,
       [Open "tagger.log" "a" true;
        Write "tagger.log"
          ("[" +:+ timestamp +:+ "] START None"
           +:+ String "010"%char EmptyString) true;
        Close "tagger.log"]) /\
    line_feeds ("[" +:+ timestamp +:+ "] START None"
                +:+ String "010"%char EmptyString) = 1%nat.
Proof.
  split; [exact example_time_valid|].
  destruct (log_transition_appends_one_line
              (example_world "Game Capture" (Return reply_ok)) false
              initial_data example_time_valid)
    as (timestamp & game & Hiso & _ & Hnone & _ & _ & Hopened & _ & Hline).
  rewrite (Hnone eq_refl) in *.
  exists timestamp. split; [exact Hiso|]. split.
  - destruct Hopened as (_ & Hwritten & _); [reflexivity|].
    apply Hwritten. reflexivity.
  - apply Hline. reflexivity.
Defined.


(** Event 3 of the host's enumeration is not the scene change. *)
Lemma other_events_ignored_witness :
  handle_event example_scene_changed
    (example_world "Game Capture" (Return reply_ok)) 3 initial_data
  = (Return tt, initial_data, []).
Proof.
  apply (other_events_ignored example_scene_changed). vm_compute. discriminate.
Defined.


(** * The further properties at the concrete configuration *)

(** The file discipline is not vacuous: a file left open, a write without
    an open file and a file opened for truncation all fail it. *)
Example file_discipline_rejects :
  file_discipline None [Open "tagger.log" "a" true;
                        Write "tagger.log" "x" true] = false /\
  file_discipline None [Write "tagger.log" "x" true] = false /\
  file_discipline None [Open "tagger.log" "w" true;
                        Close "tagger.log"] = false.
Proof. repeat split; vm_compute; reflexivity. Qed.

(** Neither is the shape of the log: a text that is not a line of the log
    writer does not make a log. *)
Example log_shape_rejects : ~ log_shape None ["START"].
Proof.
  intros Hshape. inversion Hshape.
Qed.

(** The game scene listed twice, and after another one that is there
    already. *)
Lemma game_scenes_used_as_set_witness :
  handle_event example_scene_changed
    (with_game_scenes (example_world "Game Capture" (Return reply_ok))
       ["Game Capture"; "Game Capture"])
    example_scene_changed initial_data
  = handle_event example_scene_changed
      (example_world "Game Capture" (Return reply_ok))
      example_scene_changed initial_data.
Proof.
  apply (game_scenes_used_as_set example_scene_changed).
  intros name. simpl. rewrite !elem_of_cons, elem_of_nil. tauto.
Defined.

(** After the start in "Game Capture" the flag is set, and the same scene
    notified again does nothing. *)
Lemma returned_scene_change_settles_witness :
  handle_event example_scene_changed
    (example_world "Game Capture" (Return reply_not_found))
    example_scene_changed
    {| in_game_scene := true; current_game := PyStr "sm64-120" |}
  = (Return tt,
     {| in_game_scene := true; current_game := PyStr "sm64-120" |}, []).
Proof.
  destruct (returned_scene_change_settles example_scene_changed
              (example_world "Game Capture" (Return reply_ok))
              initial_data
              {| in_game_scene := true; current_game := PyStr "sm64-120" |}
              [Print "Entering game"; Get "http://localhost:8080/api";
               Open "tagger.log" "a" true;
               Write "tagger.log"
                 ("[2024-03-09T17:05:42.001234] START sm64-120" +:+ newline)
                 true;
               Close "tagger.log"]) as [_ Hagain].
  - vm_compute. reflexivity.
  - apply Hagain; [reflexivity|]. intros name. reflexivity.
Defined.

(** A stale id in the state, a fresh one from the endpoint. *)
Lemma start_line_carries_fresh_id_witness :
  handle_event example_scene_changed
    (example_world "Game Capture" (Return reply_ok))
    example_scene_changed
    {| in_game_scene := false; current_game := PyStr "oot-any" |}
  = (Return tt,
     {| in_game_scene := true; current_game := PyStr "sm64-120" |},
     [Print "Entering game"; Get "http://localhost:8080/api";
      Open "tagger.log" "a" true;
      Write "tagger.log"
        ("[2024-03-09T17:05:42.001234] START sm64-120" +:+ newline) true;
      Close "tagger.log"]).
Proof.
  apply (start_line_carries_fresh_id example_scene_changed
           (example_world "Game Capture" (Return reply_ok))
           {| in_game_scene := false; current_game := PyStr "oot-any" |}
           (PyStr "sm64-120")).
  - reflexivity.
  - by_evaluation.
  - exists reply_ok, (JsonDict {[ "current_game_id" := PyStr "sm64-120" ]}).
    repeat split; vm_compute; reflexivity.
  - split; reflexivity.
Defined.

(** The endpoint answers, the log file cannot be opened. *)
Lemma fetched_id_kept_when_append_raises_witness :
  (handle_event example_scene_changed
     (example_world_read_only "Game Capture" (Return reply_ok))
     example_scene_changed initial_data).1
  = (Raise OSError,
     {| in_game_scene := false; current_game := PyStr "sm64-120" |}).
Proof.
  destruct (fetched_id_kept_when_append_raises example_scene_changed
              (example_world_read_only "Game Capture" (Return reply_ok))
              initial_data (PyStr "sm64-120") OSError)
    as (Houtcome & Hstate & _).
  - reflexivity.
  - by_evaluation.
  - exists reply_ok, (JsonDict {[ "current_game_id" := PyStr "sm64-120" ]}).
    repeat split; vm_compute; reflexivity.
  - left. reflexivity.
  - destruct (handle_event _ _ _ _) as [[o d'] t]. simpl in *.
    by rewrite Houtcome, Hstate.
Defined.

(** The start in "Game Capture" raises on a network error; the next change
    to "Game Capture" prints the message and sends the request again. *)
Lemma raised_transition_starts_over_witness :
  head (handle_event example_scene_changed
          (example_world "Game Capture" (Return reply_ok))
          example_scene_changed initial_data).2
  = Some (Print "Entering game") /\
  requests (handle_event example_scene_changed
              (example_world "Game Capture" (Return reply_ok))
              example_scene_changed initial_data).2
  = ["http://localhost:8080/api"].
Proof.
  apply (raised_transition_starts_over example_scene_changed
           (example_world "Game Capture" (Raise RequestException))
           (example_world "Game Capture" (Return reply_ok))
           initial_data initial_data
           [Print "Entering game"; Get "http://localhost:8080/api"]
           RequestException).
  - vm_compute. reflexivity.
  - reflexivity.
Defined.


